(** * Wikipedia MCP server: the tool layer of [main.py]

    The program registers thirteen tools.  Every tool validates a one-field
    input record, calls the [wikipedia] client library inside a
    [try]/[except] block, and either returns a small dictionary or raises
    [ToolError].  The development embeds the tool bodies over an explicit
    interface of the client library (the provider), records every entry
    made through that interface in a log (the calls, and the reads of the
    page properties the library loads on demand), and proves the
    error-translation and call-count properties of the layer. *)

From Stdlib Require Import String List Bool ZArith.
Import ListNotations.
Open Scope string_scope.

Set Implicit Arguments.

(** ** Values *)

(** JSON-shaped Python values: what a tool receives and what it returns.
    A Python [dict] literal keeps its insertion order. *)
#[warnings="-register-all"]
Inductive json : Type :=
| JNull
| JBool (b : bool)
| JNum (n : Z)
| JStr (s : string)
| JList (l : list json)
| JObj (fields : list (string * json)).

(** A Python [list] of [str]. *)
Definition str_list (l : list string) : json := JList (map JStr l).

(** [d.get(k)] on a dictionary given by its items. *)
Fixpoint dict_get (k : string) (d : list (string * json)) : option json :=
  match d with
  | [] => None
  | (k', v) :: d' => if String.eqb k k' then Some v else dict_get k d'
  end.

(** ** Exceptions *)

(** Instances of Python's [Exception] that can travel through the tool
    layer.  [PageError] and [DisambiguationError] are the two classes of
    [wikipedia.exceptions] the source names; [ToolError] is
    [fastmcp.exceptions.ToolError]; [ValidationError] is what the input
    schema raises; [OtherException] stands for an instance of any other
    subclass of [Exception] (its class name is kept).  The [str] component is
    what [str(e)] evaluates to.  Signals outside [Exception]
    ([KeyboardInterrupt], [SystemExit]) are not modelled. *)
Inductive exn : Type :=
| PageError (str : string)
| DisambiguationError (str : string) (options : list string)
| ToolError (str : string)
| ValidationError (str : string)
| OtherException (cls : string) (str : string).

(** [str(e)] *)
Definition py_str (e : exn) : string :=
  match e with
  | PageError s => s
  | DisambiguationError s _ => s
  | ToolError s => s
  | ValidationError s => s
  | OtherException _ s => s
  end.

(** [e.options], read only on a [DisambiguationError]. *)
Definition exc_options (e : exn) : list string :=
  match e with
  | DisambiguationError _ o => o
  | _ => []
  end.

(** The class tests of the [except] clauses. *)
Definition isinstance_PageError (e : exn) : bool :=
  match e with PageError _ => true | _ => false end.

Definition isinstance_DisambiguationError (e : exn) : bool :=
  match e with DisambiguationError _ _ => true | _ => false end.

Definition isinstance_Exception (e : exn) : bool := true.

(** ** The provider: the [wikipedia] client library *)

(** A [WikipediaPage] object as [wikipedia.page] hands it over: the
    attributes the library sets while it builds the object.  The other
    attributes the tools read ([content], [images], [links], [references],
    [categories]) are properties the library loads on first read by
    querying the encyclopedia again; they are entries of the provider
    below, beside the method [html()]. *)
Record WikipediaPage : Type := {
  title : string;
  url : string;
  pageid : string
}.

(** The expressions of the source that enter the library: the three
    module-level calls, the method call, and the reads of a property the
    library loads on demand. *)
Inductive call : Type :=
| CallSummary (t : string)            (* wikipedia.summary(t) *)
| CallPage (t : string)               (* wikipedia.page(t) *)
| CallSearch (q : string)             (* wikipedia.search(q) *)
| CallHtml (p : WikipediaPage)        (* p.html() *)
| ReadContent (p : WikipediaPage)     (* p.content *)
| ReadImages (p : WikipediaPage)      (* p.images *)
| ReadLinks (p : WikipediaPage)       (* p.links *)
| ReadReferences (p : WikipediaPage)  (* p.references *)
| ReadCategories (p : WikipediaPage). (* p.categories *)

(** One entry of the call log: the call, and the exception it raised if it
    raised one. *)
Record event : Type := {
  ev_call : call;
  ev_raised : option exn
}.

Definition raised_of (A : Type) (r : exn + A) : option exn :=
  match r with inl e => Some e | inr _ => None end.

Section Layer.

(** The state of the outside world (the encyclopedia, the network).  A
    provider call reads it and may change it. *)
Variable World : Type.

(** The library's entry points used by the source.  Each either raises an
    exception or returns a value. *)
Record Provider : Type := {
  wikipedia_summary : string -> World -> (exn + string) * World;
  wikipedia_page : string -> World -> (exn + WikipediaPage) * World;
  wikipedia_search : string -> World -> (exn + list string) * World;
  page_html : WikipediaPage -> World -> (exn + string) * World;
  page_content : WikipediaPage -> World -> (exn + string) * World;
  page_images : WikipediaPage -> World -> (exn + list string) * World;
  page_links : WikipediaPage -> World -> (exn + list string) * World;
  page_references : WikipediaPage -> World -> (exn + list string) * World;
  page_categories : WikipediaPage -> World -> (exn + list string) * World
}.

(** ** The execution monad: world, call log, exceptions *)

Record state : Type := {
  world : World;
  log : list event
}.

Inductive outcome (A : Type) : Type :=
| Returned (a : A)
| Raised (e : exn).

Arguments Raised {A} e.

Definition Py (A : Type) : Type := state -> outcome A * state.

Definition ret {A : Type} (a : A) : Py A := fun s => (Returned a, s).

Definition raise {A : Type} (e : exn) : Py A := fun s => (Raised e, s).

Definition bind {A B : Type} (m : Py A) (k : A -> Py B) : Py B :=
  fun s =>
    match m s with
    | (Returned a, s') => k a s'
    | (Raised e, s') => (Raised e, s')
    end.

(** An [except C as e: h] clause: the class test and the handler. *)
Definition except_clause (A : Type) : Type := ((exn -> bool) * (exn -> Py A))%type.

(** The first clause whose class matches, as Python selects it. *)
Fixpoint select_handler {A : Type} (clauses : list (except_clause A)) (e : exn)
  : option (exn -> Py A) :=
  match clauses with
  | [] => None
  | (test, h) :: rest => if test e then Some h else select_handler rest e
  end.

(** [try: body  except ...: ...].  An exception raised by a handler is not
    offered to the other clauses; an exception no clause matches goes on. *)
Definition try_except {A : Type} (body : Py A) (clauses : list (except_clause A))
  : Py A :=
  fun s =>
    match body s with
    | (Returned a, s') => (Returned a, s')
    | (Raised e, s') =>
        match select_handler clauses e with
        | Some h => h e s'
        | None => (Raised e, s')
        end
    end.

(** A call into the library: run it on the world, log it, and turn its
    answer into a return or a raise. *)
Definition provider_call {A : Type} (c : call)
  (f : World -> (exn + A) * World) : Py A :=
  fun s =>
    let (r, w') := f (world s) in
    let s' := {| world := w'; log := log s ++ [{| ev_call := c; ev_raised := raised_of r |}] |} in
    match r with
    | inl e => (Raised e, s')
    | inr a => (Returned a, s')
    end.

End Layer.

Arguments Raised {A} e.
Arguments ret {World A} a.
Arguments raise {World A} e.

Declare Scope py_scope.
Delimit Scope py_scope with py.
Notation "x <- m ;; k" := (bind m (fun x => k))
  (at level 61, m at next level, right associativity) : py_scope.
Notation "m ;;; k" := (bind m (fun _ => k))
  (at level 61, right associativity) : py_scope.
Open Scope py_scope.

(** ** Input schemas *)

(** [class WikipediaPageInput(BaseModel)]: one required field, [page: str]. *)
Record WikipediaPageInput : Type := { page : string }.

(** [class WikipediaSearchInput(BaseModel)]: one required field, [query: str]. *)
Record WikipediaSearchInput : Type := { query : string }.

(** Validation of a one-field model against a raw argument, as the schema
    declares it: the argument is a dictionary, the field is present
    ([Field(...)] makes it required) and its value is a [str].  No length
    or pattern constraint is declared, and other keys are ignored. *)
Definition validate_str_field (name : string) (raw : json) : exn + string :=
  match raw with
  | JObj d =>
      match dict_get name d with
      | Some (JStr v) => inr v
      | Some _ => inl (ValidationError (name ++ ": Input should be a valid string"))
      | None => inl (ValidationError (name ++ ": Field required"))
      end
  | _ => inl (ValidationError "Input should be a valid dictionary")
  end.

Definition validate_WikipediaPageInput (raw : json) : exn + WikipediaPageInput :=
  match validate_str_field "page" raw with
  | inl e => inl e
  | inr v => inr {| page := v |}
  end.

Definition validate_WikipediaSearchInput (raw : json) : exn + WikipediaSearchInput :=
  match validate_str_field "query" raw with
  | inl e => inl e
  | inr v => inr {| query := v |}
  end.

(** ** The tool catalog *)

(** One constructor per [@mcp.tool] registration, in the order of the
    source: [get_summary], [get_content], [get_html], [get_images],
    [get_links], [get_references], [get_categories], [get_url],
    [get_title], [get_page_id], [search_pages], [check_page_exists],
    [disambiguation_options]. *)
Inductive tool : Type :=
| GetSummary | GetContent | GetHtml | GetImages | GetLinks | GetReferences
| GetCategories | GetUrl | GetTitle | GetPageId | SearchPages
| CheckPageExists | DisambiguationOptions.

(** The name of the one input field of a tool. *)
Definition field_of (t : tool) : string :=
  match t with
  | SearchPages => "query"
  | _ => "page"
  end.

Section Tools.

Variable World : Type.
Variable P : Provider World.

(** The three module-level functions and the one method, as logged calls. *)
Definition call_summary (t : string) : Py World string :=
  provider_call (CallSummary t) (wikipedia_summary P t).

Definition call_page (t : string) : Py World WikipediaPage :=
  provider_call (CallPage t) (wikipedia_page P t).

Definition call_search (q : string) : Py World (list string) :=
  provider_call (CallSearch q) (wikipedia_search P q).

Definition call_html (p : WikipediaPage) : Py World string :=
  provider_call (CallHtml p) (page_html P p).

(** The reads of the properties loaded on demand, as logged entries. *)
Definition read_content (p : WikipediaPage) : Py World string :=
  provider_call (ReadContent p) (page_content P p).

Definition read_images (p : WikipediaPage) : Py World (list string) :=
  provider_call (ReadImages p) (page_images P p).

Definition read_links (p : WikipediaPage) : Py World (list string) :=
  provider_call (ReadLinks p) (page_links P p).

Definition read_references (p : WikipediaPage) : Py World (list string) :=
  provider_call (ReadReferences p) (page_references P p).

Definition read_categories (p : WikipediaPage) : Py World (list string) :=
  provider_call (ReadCategories p) (page_categories P p).

(** [except Exception as e: raise ToolError(f"<label>{str(e)}")] *)
Definition reraise (label : string) : except_clause World json :=
  (isinstance_Exception, fun e => raise (ToolError (label ++ py_str e))).

Definition get_summary (input : WikipediaPageInput) : Py World json :=
  try_except
    (s <- call_summary (page input) ;;
     ret (JObj [("summary", JStr s)]))
    [reraise "Summary error: "].

Definition get_content (input : WikipediaPageInput) : Py World json :=
  try_except
    (p <- call_page (page input) ;;
     c <- read_content p ;;
     ret (JObj [("content", JStr c)]))
    [reraise "Content error: "].

Definition get_html (input : WikipediaPageInput) : Py World json :=
  try_except
    (p <- call_page (page input) ;;
     h <- call_html p ;;
     ret (JObj [("html", JStr h)]))
    [reraise "HTML error: "].

Definition get_images (input : WikipediaPageInput) : Py World json :=
  try_except
    (p <- call_page (page input) ;;
     c <- read_images p ;;
     ret (JObj [("images", str_list c)]))
    [reraise "Images error: "].

Definition get_links (input : WikipediaPageInput) : Py World json :=
  try_except
    (p <- call_page (page input) ;;
     c <- read_links p ;;
     ret (JObj [("links", str_list c)]))
    [reraise "Links error: "].

Definition get_references (input : WikipediaPageInput) : Py World json :=
  try_except
    (p <- call_page (page input) ;;
     c <- read_references p ;;
     ret (JObj [("references", str_list c)]))
    [reraise "References error: "].

Definition get_categories (input : WikipediaPageInput) : Py World json :=
  try_except
    (p <- call_page (page input) ;;
     c <- read_categories p ;;
     ret (JObj [("categories", str_list c)]))
    [reraise "Categories error: "].

Definition get_url (input : WikipediaPageInput) : Py World json :=
  try_except
    (p <- call_page (page input) ;;
     ret (JObj [("url", JStr (url p))]))
    [reraise "URL error: "].

Definition get_title (input : WikipediaPageInput) : Py World json :=
  try_except
    (p <- call_page (page input) ;;
     ret (JObj [("title", JStr (title p))]))
    [reraise "Title error: "].

Definition get_page_id (input : WikipediaPageInput) : Py World json :=
  try_except
    (p <- call_page (page input) ;;
     ret (JObj [("page_id", JStr (pageid p))]))
    [reraise "Page ID error: "].

Definition search_pages (input : WikipediaSearchInput) : Py World json :=
  try_except
    (r <- call_search (query input) ;;
     ret (JObj [("results", str_list r)]))
    [reraise "Search error: "].

(** The local [exists] is set before the call, reset by the [PageError]
    clause, and read after the [try] statement. *)
Definition check_page_exists (input : WikipediaPageInput) : Py World json :=
  exists_ <- try_except
               (let exists_ := true in
                call_page (page input) ;;;
                ret exists_)
               [(isinstance_PageError, fun _ => ret false);
                (isinstance_Exception,
                 fun e => raise (ToolError ("Existence check error: " ++ py_str e)))] ;;
  ret (JObj [("exists", JBool exists_)]).

Definition disambiguation_options (input : WikipediaPageInput) : Py World json :=
  try_except
    (call_page (page input) ;;;
     ret (JObj [("disambiguation", JBool false); ("options", str_list [])]))
    [(isinstance_DisambiguationError,
      fun e => ret (JObj [("disambiguation", JBool true);
                          ("options", str_list (exc_options e))]));
     reraise "Disambiguation check error: "].

(** The body registered for each tool, applied to the value of its field. *)
Definition tool_body (t : tool) (v : string) : Py World json :=
  match t with
  | GetSummary => get_summary {| page := v |}
  | GetContent => get_content {| page := v |}
  | GetHtml => get_html {| page := v |}
  | GetImages => get_images {| page := v |}
  | GetLinks => get_links {| page := v |}
  | GetReferences => get_references {| page := v |}
  | GetCategories => get_categories {| page := v |}
  | GetUrl => get_url {| page := v |}
  | GetTitle => get_title {| page := v |}
  | GetPageId => get_page_id {| page := v |}
  | SearchPages => search_pages {| query := v |}
  | CheckPageExists => check_page_exists {| page := v |}
  | DisambiguationOptions => disambiguation_options {| page := v |}
  end.

(** A tool call as the server performs it: the raw argument is validated
    against the schema of the tool's parameter, and the body runs on the
    validated record only. *)
Definition page_tool (body : WikipediaPageInput -> Py World json) (raw : json) : Py World json :=
  match validate_WikipediaPageInput raw with
  | inl e => raise e
  | inr input => body input
  end.

Definition search_tool (body : WikipediaSearchInput -> Py World json) (raw : json) : Py World json :=
  match validate_WikipediaSearchInput raw with
  | inl e => raise e
  | inr input => body input
  end.

Definition call_tool (t : tool) (raw : json) : Py World json :=
  match t with
  | GetSummary => page_tool get_summary raw
  | GetContent => page_tool get_content raw
  | GetHtml => page_tool get_html raw
  | GetImages => page_tool get_images raw
  | GetLinks => page_tool get_links raw
  | GetReferences => page_tool get_references raw
  | GetCategories => page_tool get_categories raw
  | GetUrl => page_tool get_url raw
  | GetTitle => page_tool get_title raw
  | GetPageId => page_tool get_page_id raw
  | SearchPages => search_tool search_pages raw
  | CheckPageExists => page_tool check_page_exists raw
  | DisambiguationOptions => page_tool disambiguation_options raw
  end.

End Tools.

(** ** Observations on a run *)

(** The label at the head of each tool's [ToolError] message. *)
Definition label (t : tool) : string :=
  match t with
  | GetSummary => "Summary error: "
  | GetContent => "Content error: "
  | GetHtml => "HTML error: "
  | GetImages => "Images error: "
  | GetLinks => "Links error: "
  | GetReferences => "References error: "
  | GetCategories => "Categories error: "
  | GetUrl => "URL error: "
  | GetTitle => "Title error: "
  | GetPageId => "Page ID error: "
  | SearchPages => "Search error: "
  | CheckPageExists => "Existence check error: "
  | DisambiguationOptions => "Disambiguation check error: "
  end.

(** The exception classes a tool turns into a result instead of an error:
    the clause that precedes [except Exception] in its body, if any. *)
Definition recovered (t : tool) (e : exn) : bool :=
  match t with
  | CheckPageExists => isinstance_PageError e
  | DisambiguationOptions => isinstance_DisambiguationError e
  | _ => false
  end.

(** The result a tool returns from its recovering clause. *)
Definition recovered_result (t : tool) (e : exn) : json :=
  match t with
  | CheckPageExists => JObj [("exists", JBool false)]
  | _ => JObj [("disambiguation", JBool true); ("options", str_list (exc_options e))]
  end.

(** The first provider call of a tool on the field value [v]. *)
Definition entry_call (t : tool) (v : string) : call :=
  match t with
  | GetSummary => CallSummary v
  | SearchPages => CallSearch v
  | _ => CallPage v
  end.

Definition is_str (j : json) : bool :=
  match j with JStr _ => true | _ => false end.

Definition is_bool (j : json) : bool :=
  match j with JBool _ => true | _ => false end.

Definition is_str_list (j : json) : bool :=
  match j with JList l => forallb is_str l | _ => false end.

(** The complete result shape of each tool: the keys of the dictionary it
    builds, in order, with the type of each value. *)
Definition result_shape (t : tool) : list (string * (json -> bool)) :=
  match t with
  | GetSummary => [("summary", is_str)]
  | GetContent => [("content", is_str)]
  | GetHtml => [("html", is_str)]
  | GetImages => [("images", is_str_list)]
  | GetLinks => [("links", is_str_list)]
  | GetReferences => [("references", is_str_list)]
  | GetCategories => [("categories", is_str_list)]
  | GetUrl => [("url", is_str)]
  | GetTitle => [("title", is_str)]
  | GetPageId => [("page_id", is_str)]
  | SearchPages => [("results", is_str_list)]
  | CheckPageExists => [("exists", is_bool)]
  | DisambiguationOptions => [("disambiguation", is_bool); ("options", is_str_list)]
  end.

Fixpoint has_shape (shape : list (string * (json -> bool)))
  (fields : list (string * json)) : bool :=
  match shape, fields with
  | [], [] => true
  | (k, chk) :: shape', (k', v) :: fields' =>
      String.eqb k k' && chk v && has_shape shape' fields'
  | _, _ => false
  end.

Definition well_formed (t : tool) (j : json) : bool :=
  match j with
  | JObj fields => has_shape (result_shape t) fields
  | _ => false
  end.

Section Observations.

Variable World : Type.

(** The events a run appended to the log of the state it started from. *)
Definition new_events (A : Type) (s : state World) (r : outcome A * state World)
  : list event :=
  skipn (length (log s)) (log (snd r)).

(** The exception of the first provider call of a run. *)
Definition first_raised (evs : list event) : option exn :=
  match evs with
  | [] => None
  | ev :: _ => ev_raised ev
  end.


End Observations.

(** ** The properties under study, as predicates on a run *)

(** The result of [disambiguation_options] for a given list of options. *)
Definition disambiguation_result (b : bool) (options : list string) : json :=
  JObj [("disambiguation", JBool b); ("options", str_list options)].

(** The number of provider calls per invocation in the design policy: one,
    and two for the two tools that tell error classes apart. *)
Definition policy_call_count (t : tool) : nat :=
  match t with
  | CheckPageExists | DisambiguationOptions => 2
  | _ => 1
  end.

Section Statements.

Variable World : Type.
Variable P : Provider World.

(** The disambiguation property with a non-empty list: the tool returns
    [{"disambiguation": True, "options": l}] for some non-empty [l] if and
    only if [wikipedia.page] raises [DisambiguationError]. *)
Definition nonempty_options_claim (input : WikipediaPageInput) (s : state World)
  : Prop :=
  (exists l, l <> [] /\
     fst (disambiguation_options P input s) = Returned (disambiguation_result true l))
  <-> (exists m o,
         fst (wikipedia_page P (page input) (world s)) = inl (DisambiguationError m o)).

(** The non-empty-string reading of the schemas: an argument whose field is
    the empty string is refused by validation and no provider call is made. *)
Definition empty_field_rejected_claim (t : tool) (s : state World) : Prop :=
  (exists m, fst (call_tool P t (JObj [(field_of t, JStr "")]) s)
             = Raised (ValidationError m))
  /\ new_events s (call_tool P t (JObj [(field_of t, JStr "")]) s) = [].

(** The non-empty-values property: for a title the provider resolves to a
    page, the four tools return non-empty strings. *)
Definition nonempty_values_claim (t : string) (s : state World) : Prop :=
  forall p, fst (wikipedia_page P t (world s)) = inr p ->
  exists sm ti u pid,
    sm <> "" /\ ti <> "" /\ u <> "" /\ pid <> ""
    /\ fst (get_summary P {| page := t |} s) = Returned (JObj [("summary", JStr sm)])
    /\ fst (get_title P {| page := t |} s) = Returned (JObj [("title", JStr ti)])
    /\ fst (get_url P {| page := t |} s) = Returned (JObj [("url", JStr u)])
    /\ fst (get_page_id P {| page := t |} s) = Returned (JObj [("page_id", JStr pid)]).

End Statements.

(** ** The catalog as tables *)

(** The three tools that read an attribute the library set when it built
    the page object: the key of the dictionary they build, and the value
    they put under it. *)
Definition eager_attribute (t : tool) : option (string * (WikipediaPage -> json)) :=
  match t with
  | GetUrl => Some ("url", fun p => JStr (url p))
  | GetTitle => Some ("title", fun p => JStr (title p))
  | GetPageId => Some ("page_id", fun p => JStr (pageid p))
  | _ => None
  end.

(** The six tools that enter the library a second time, on the page the
    lookup returned: the entry they make. *)
Definition follow_up_call (t : tool) : option (WikipediaPage -> call) :=
  match t with
  | GetContent => Some ReadContent
  | GetHtml => Some CallHtml
  | GetImages => Some ReadImages
  | GetLinks => Some ReadLinks
  | GetReferences => Some ReadReferences
  | GetCategories => Some ReadCategories
  | _ => None
  end.

(** The nine tools that look a page up and recover no exception. *)
Definition reads_page (t : tool) : bool :=
  match t with
  | GetSummary | SearchPages | CheckPageExists | DisambiguationOptions => false
  | _ => true
  end.

Section ProviderAnswers.

Variable World : Type.
Variable P : Provider World.

(** A provider answer with its value as the JSON value built from it. *)
Definition answer_json (A : Type) (f : A -> json) (r : (exn + A) * World)
  : (exn + json) * World :=
  match r with
  | (inl e, w) => (inl e, w)
  | (inr a, w) => (inr (f a), w)
  end.

(** For the six tools of [follow_up_call]: the key of the result, and what
    the provider answers to the second entry. *)
Definition follow_up (t : tool)
  : option (string * (WikipediaPage -> World -> (exn + json) * World)) :=
  match t with
  | GetContent => Some ("content", fun p w => answer_json JStr (page_content P p w))
  | GetHtml => Some ("html", fun p w => answer_json JStr (page_html P p w))
  | GetImages => Some ("images", fun p w => answer_json str_list (page_images P p w))
  | GetLinks => Some ("links", fun p w => answer_json str_list (page_links P p w))
  | GetReferences =>
      Some ("references", fun p w => answer_json str_list (page_references P p w))
  | GetCategories =>
      Some ("categories", fun p w => answer_json str_list (page_categories P p w))
  | _ => None
  end.

(** The exception the provider answers to a tool started on the field
    value [v] in the world [w], if it answers one: that of the entry call;
    or, when the entry call returned a page and the tool enters the library
    again on it, that of the second entry in the world the lookup left. *)
Definition provider_failure (t : tool) (v : string) (w : World) : option exn :=
  match t with
  | GetSummary => raised_of (fst (wikipedia_summary P v w))
  | SearchPages => raised_of (fst (wikipedia_search P v w))
  | _ =>
      match wikipedia_page P v w with
      | (inl e, _) => Some e
      | (inr p, w1) =>
          match follow_up t with
          | Some (_, access) => raised_of (fst (access p w1))
          | None => None
          end
      end
  end.

End ProviderAnswers.

(** ** A test double of the provider

    The world is the number of requests served so far.  The titles are the
    ones of the concrete scenarios: an existing page, a missing page, an
    ambiguous title; two more titles exercise the edges of the library's
    interface (an existing page whose extract is empty, a disambiguation
    page without candidate links), and the empty title makes the library fail
    with an error of its own. *)
Module Demo.

Definition einstein : WikipediaPage :=
  {| title := "Albert Einstein";
     url := "https://en.wikipedia.org/wiki/Albert_Einstein";
     pageid := "736" |}.

Definition blank : WikipediaPage :=
  {| title := "Blank stub";
     url := "https://en.wikipedia.org/wiki/Blank_stub";
     pageid := "901" |}.

Definition mercury_options : list string :=
  ["Mercury (planet)"; "Mercury (element)"; "Mercury (mythology)"].

Definition lookup (t : string) : exn + WikipediaPage :=
  if String.eqb t "Albert Einstein" then inr einstein
  else if String.eqb t "Blank stub" then inr blank
  else if String.eqb t "Mercury" then
    inl (DisambiguationError "Mercury may refer to: several pages" mercury_options)
  else if String.eqb t "Bare list" then
    inl (DisambiguationError "Bare list may refer to: " [])
  else if String.eqb t "" then
    inl (OtherException "WikipediaException" "An unknown error occured: missing title")
  else inl (PageError ("Page id " ++ t ++ " does not match any pages. Try another id!")).

(** The text of a page: the blank page has none. *)
Definition text (p : WikipediaPage) : string :=
  if String.eqb (title p) "Albert Einstein"
  then "Albert Einstein was a German-born theoretical physicist."
  else "".

Definition extract (t : string) : exn + string :=
  match lookup t with
  | inl e => inl e
  | inr p => inr (text p)
  end.

Definition matches (q : string) : exn + list string :=
  if String.eqb q "Einstein" then inr ["Albert Einstein"; "Einstein family"]
  else if String.eqb q "" then
    inl (OtherException "WikipediaException" "An unknown error occured: missing search")
  else inr [].

Definition render (p : WikipediaPage) : exn + string :=
  if String.eqb (text p) "" then
    inl (OtherException "KeyError" "'extract'")
  else inr ("<p>" ++ text p ++ "</p>").

(** The properties loaded on demand.  The blank page has no images and no
    links; the answer of the encyclopedia for it has no entry for external
    links nor for categories, and the library fails on the missing key. *)
Definition pictures (p : WikipediaPage) : exn + list string :=
  if String.eqb (title p) "Albert Einstein"
  then inr ["https://upload.wikimedia.org/Einstein_1921.jpg"]
  else inr [].

Definition outgoing (p : WikipediaPage) : exn + list string :=
  if String.eqb (title p) "Albert Einstein" then inr ["Physics"; "Ulm"] else inr [].

Definition cited (p : WikipediaPage) : exn + list string :=
  if String.eqb (title p) "Albert Einstein"
  then inr ["https://www.nobelprize.org/"]
  else inl (OtherException "KeyError" "'extlinks'").

Definition filed (p : WikipediaPage) : exn + list string :=
  if String.eqb (title p) "Albert Einstein"
  then inr ["1879 births"]
  else inl (OtherException "KeyError" "'categories'").

Definition provider : Provider nat :=
  {| wikipedia_summary := fun t w => (extract t, S w);
     wikipedia_page := fun t w => (lookup t, S w);
     wikipedia_search := fun q w => (matches q, S w);
     page_html := fun p w => (render p, S w);
     page_content := fun p w => (inr (text p), S w);
     page_images := fun p w => (pictures p, S w);
     page_links := fun p w => (outgoing p, S w);
     page_references := fun p w => (cited p, S w);
     page_categories := fun p w => (filed p, S w) |}.

(** A fresh server: no request served, nothing logged. *)
Definition s0 : state nat := {| world := 0; log := [] |}.

Definition query_arg (q : string) : json := JObj [("query", JStr q)].

(** The state after one request has been served and logged. *)
Definition s1 : state nat := snd (tool_body provider GetTitle "Albert Einstein" s0).

End Demo.

(** ** Proof automation *)

(** Unfold the tool bodies down to the provider's answers. *)
Ltac unfold_tools :=
  unfold call_tool, page_tool, search_tool, tool_body,
    get_summary, get_content, get_html, get_images, get_links,
    get_references, get_categories, get_url, get_title, get_page_id,
    search_pages, check_page_exists, disambiguation_options, reraise,
    call_summary, call_page, call_search, call_html,
    read_content, read_images, read_links, read_references, read_categories,
    try_except, provider_call, bind, ret, raise in *.

(** Case analysis on the answer of every provider call in the goal. *)
Ltac case_answer f :=
  let e := fresh "e" in
  let a := fresh "a" in
  let w := fresh "w" in
  let E := fresh "Eanswer" in
  destruct f as [[e | a] w] eqn:E; cbn.

Ltac case_provider :=
  repeat match goal with
    | |- context [wikipedia_summary ?P ?t ?w] => case_answer (wikipedia_summary P t w)
    | |- context [wikipedia_page ?P ?t ?w] => case_answer (wikipedia_page P t w)
    | |- context [wikipedia_search ?P ?q ?w] => case_answer (wikipedia_search P q w)
    | |- context [page_html ?P ?p ?w] => case_answer (page_html P p w)
    | |- context [page_content ?P ?p ?w] => case_answer (page_content P p w)
    | |- context [page_images ?P ?p ?w] => case_answer (page_images P p w)
    | |- context [page_links ?P ?p ?w] => case_answer (page_links P p w)
    | |- context [page_references ?P ?p ?w] => case_answer (page_references P p w)
    | |- context [page_categories ?P ?p ?w] => case_answer (page_categories P p w)
    end.

(** Reduce [new_events] on a run whose log is written out. *)
Ltac run_events :=
  unfold new_events; cbn [snd fst log world];
  autorewrite with events; cbn.

(** * Properties *)

(** ** Running a tool body *)

Lemma skipn_length_app (A : Type) (l l' : list A) :
  skipn (length l) (l ++ l') = l'.
Proof.
  induction l as [|x l IH]; simpl; [reflexivity | exact IH].
Qed.

Lemma skipn_length_self (A : Type) (l : list A) : skipn (length l) l = [].
Proof.
  induction l as [|x l IH]; simpl; [reflexivity | exact IH].
Qed.

Create Rewrite HintDb events.
#[global] Hint Rewrite <- app_assoc : events.
#[global] Hint Rewrite skipn_length_app skipn_length_self : events.

Lemma forallb_is_str (l : list string) : forallb is_str (map JStr l) = true.
Proof.
  induction l as [|x l IH]; simpl; [reflexivity | exact IH].
Qed.

Lemma isinstance_PageError_inv (e : exn) :
  isinstance_PageError e = true <-> exists m, e = PageError m.
Proof.
  split.
  - destruct e; simpl; try discriminate. intros _. eexists; reflexivity.
  - intros [m ->]. reflexivity.
Qed.

Lemma isinstance_DisambiguationError_inv (e : exn) :
  isinstance_DisambiguationError e = true <->
  exists m o, e = DisambiguationError m o.
Proof.
  split.
  - destruct e; simpl; try discriminate. intros _. do 2 eexists; reflexivity.
  - intros [m [o ->]]. reflexivity.
Qed.

Section ExistenceCheck.

Variable World : Type.
Variable P : Provider World.

(** The three ways [check_page_exists] ends, by the answer of
    [wikipedia.page]. *)
Lemma check_page_exists_run (input : WikipediaPageInput) (s : state World) :
  fst (check_page_exists P input s) =
  match fst (wikipedia_page P (page input) (world s)) with
  | inr _ => Returned (JObj [("exists", JBool true)])
  | inl e =>
      if isinstance_PageError e
      then Returned (JObj [("exists", JBool false)])
      else Raised (ToolError ("Existence check error: " ++ py_str e))
  end.
Proof.
  unfold_tools. cbn.
  destruct (wikipedia_page P (page input) (world s)) as [[e | p] w]; cbn.
  - destruct (isinstance_PageError e) eqn:E.
    + reflexivity.
    + destruct e; cbn in *; try reflexivity; discriminate.
  - reflexivity.
Qed.

(** C1.  For every page title: [check_page_exists] returns
    [{"exists": False}] if and only if [wikipedia.page] raises [PageError];
    when the call returns a page the tool returns [{"exists": True}]; and
    when the call raises any exception that is not a [PageError] the tool
    raises [ToolError] (and so returns no boolean). *)
Theorem check_page_exists_spec (input : WikipediaPageInput) (s : state World) :
  (fst (check_page_exists P input s) = Returned (JObj [("exists", JBool false)])
   <-> exists m, fst (wikipedia_page P (page input) (world s)) = inl (PageError m))
  /\ (forall p, fst (wikipedia_page P (page input) (world s)) = inr p ->
        fst (check_page_exists P input s) = Returned (JObj [("exists", JBool true)]))
  /\ (forall e, fst (wikipedia_page P (page input) (world s)) = inl e ->
        isinstance_PageError e = false ->
        fst (check_page_exists P input s)
        = Raised (ToolError ("Existence check error: " ++ py_str e))).
Proof.
  rewrite check_page_exists_run.
  destruct (fst (wikipedia_page P (page input) (world s))) as [e | p].
  - repeat split.
    + destruct (isinstance_PageError e) eqn:E.
      * intros _. apply isinstance_PageError_inv in E.
        destruct E as [m ->]. exists m. reflexivity.
      * discriminate.
    + intros [m Hm]. injection Hm as ->. reflexivity.
    + intros p Hp. discriminate.
    + intros e' He' Hk. injection He' as <-. rewrite Hk. reflexivity.
  - repeat split.
    + discriminate.
    + intros [m Hm]. discriminate.
    + intros e He. discriminate.
Qed.

(** C10.  When [wikipedia.page] raises [DisambiguationError] for the title,
    [check_page_exists] raises [ToolError] with the message
    ["Existence check error: "] followed by [str(e)]; it returns neither
    [{"exists": True}] nor [{"exists": False}]. *)
Theorem check_page_exists_ambiguous (input : WikipediaPageInput) (s : state World)
  (m : string) (o : list string) :
  fst (wikipedia_page P (page input) (world s)) = inl (DisambiguationError m o) ->
  fst (check_page_exists P input s) = Raised (ToolError ("Existence check error: " ++ m))
  /\ (forall b, fst (check_page_exists P input s) <> Returned (JObj [("exists", JBool b)])).
Proof.
  intros H. rewrite check_page_exists_run, H. cbn.
  split; [reflexivity | intros b; discriminate].
Qed.

End ExistenceCheck.

Section Disambiguation.

Variable World : Type.
Variable P : Provider World.

Lemma disambiguation_options_run (input : WikipediaPageInput) (s : state World) :
  fst (disambiguation_options P input s) =
  match fst (wikipedia_page P (page input) (world s)) with
  | inr _ => Returned (disambiguation_result false [])
  | inl e =>
      if isinstance_DisambiguationError e
      then Returned (disambiguation_result true (exc_options e))
      else Raised (ToolError ("Disambiguation check error: " ++ py_str e))
  end.
Proof.
  unfold_tools. cbn.
  destruct (wikipedia_page P (page input) (world s)) as [[e | p] w]; cbn.
  - destruct e; reflexivity.
  - reflexivity.
Qed.

Lemma map_JStr_inj (l l' : list string) : map JStr l = map JStr l' -> l = l'.
Proof.
  revert l'.
  induction l as [|x l IH]; intros [|y l'] H; simpl in H; try discriminate.
  - reflexivity.
  - injection H as -> H. f_equal. apply IH. exact H.
Qed.

(** C2, as the code has it.  For every page title: [disambiguation_options]
    returns [{"disambiguation": True, "options": l}] if and only if
    [wikipedia.page] raises a [DisambiguationError] whose [options] are [l]
    (the list is passed on as it is, empty or not); when the call returns a
    page the tool returns [{"disambiguation": False, "options": []}]; and
    when the call raises any other exception the tool raises [ToolError]. *)
Theorem disambiguation_options_spec (input : WikipediaPageInput) (s : state World) :
  (forall l,
      fst (disambiguation_options P input s) = Returned (disambiguation_result true l)
      <-> exists m,
          fst (wikipedia_page P (page input) (world s)) = inl (DisambiguationError m l))
  /\ (forall p, fst (wikipedia_page P (page input) (world s)) = inr p ->
        fst (disambiguation_options P input s) = Returned (disambiguation_result false []))
  /\ (forall e, fst (wikipedia_page P (page input) (world s)) = inl e ->
        isinstance_DisambiguationError e = false ->
        fst (disambiguation_options P input s)
        = Raised (ToolError ("Disambiguation check error: " ++ py_str e))).
Proof.
  rewrite disambiguation_options_run.
  destruct (fst (wikipedia_page P (page input) (world s))) as [e | p].
  - repeat split.
    + destruct (isinstance_DisambiguationError e) eqn:E; [| discriminate].
      apply isinstance_DisambiguationError_inv in E. destruct E as [m [o ->]].
      cbn. unfold disambiguation_result. intros H.
      injection H as H. apply map_JStr_inj in H. subst o.
      exists m. reflexivity.
    + intros [m Hm]. injection Hm as ->. reflexivity.
    + intros p Hp. discriminate.
    + intros e' He' Hk. injection He' as <-. rewrite Hk. reflexivity.
  - repeat split.
    + discriminate.
    + intros [m Hm]. discriminate.
    + intros e He. discriminate.
Qed.

End Disambiguation.

Section Search.

Variable World : Type.
Variable P : Provider World.

Lemma search_pages_run (input : WikipediaSearchInput) (s : state World) :
  fst (search_pages P input s) =
  match fst (wikipedia_search P (query input) (world s)) with
  | inr r => Returned (JObj [("results", str_list r)])
  | inl e => Raised (ToolError ("Search error: " ++ py_str e))
  end.
Proof.
  unfold_tools. cbn.
  destruct (wikipedia_search P (query input) (world s)) as [[e | r] w];
    reflexivity.
Qed.

(** C7.  When [wikipedia.search] returns the empty list for the query,
    [search_pages] returns [{"results": []}] and raises nothing. *)
Theorem search_pages_no_match (input : WikipediaSearchInput) (s : state World) :
  fst (wikipedia_search P (query input) (world s)) = inr [] ->
  fst (search_pages P input s) = Returned (JObj [("results", JList [])])
  /\ (forall e, fst (search_pages P input s) <> Raised e).
Proof.
  intros H. rewrite search_pages_run, H. cbn.
  split; [reflexivity | intros e; discriminate].
Qed.

End Search.

Section Catalog.

Variable World : Type.
Variable P : Provider World.

(** C3, as the code has it.  A tool body only appends to the log of
    provider entries.  Every tool enters the library once through its entry
    call, [check_page_exists] and [disambiguation_options] included (one
    call, not two).  Six tools enter it a second time when the page lookup
    returned a page: [get_html] by calling [html()], and [get_content],
    [get_images], [get_links], [get_references], [get_categories] by
    reading a property the library loads on demand; they make one entry when
    the lookup raises.  The other seven tools never make a second entry. *)
Theorem provider_calls_per_invocation (t : tool) (v : string) (s : state World) :
  log (snd (tool_body P t v s)) = (log s ++ new_events s (tool_body P t v s))%list
  /\ length (new_events s (tool_body P t v s)) =
       match t with
       | GetContent | GetHtml | GetImages | GetLinks | GetReferences | GetCategories =>
           match fst (wikipedia_page P v (world s)) with
           | inl _ => 1
           | inr _ => 2
           end
       | _ => 1
       end.
Proof.
  destruct t; unfold_tools; cbn; case_provider;
    try (destruct e; cbn); run_events; split; reflexivity.
Qed.

(** Validation succeeds exactly on a dictionary whose field is a string. *)
Lemma validate_str_field_ok (name : string) (raw : json) (v : string) :
  validate_str_field name raw = inr v <->
  exists d, raw = JObj d /\ dict_get name d = Some (JStr v).
Proof.
  unfold validate_str_field. split.
  - destruct raw as [ | | | | | d]; try discriminate.
    destruct (dict_get name d) as [[ | | | | | ] | ] eqn:E; try discriminate.
    intros H. injection H as ->. exists d. split; [reflexivity | exact E].
  - intros [d [-> E]]. rewrite E. reflexivity.
Qed.

Lemma validate_str_field_error (name : string) (raw : json) :
  (forall d v, raw = JObj d -> dict_get name d <> Some (JStr v)) ->
  exists m, validate_str_field name raw = inl (ValidationError m).
Proof.
  intros H. unfold validate_str_field.
  destruct raw as [ | | | | | d]; try (eexists; reflexivity).
  destruct (dict_get name d) as [[ | | | | | ] | ] eqn:E; try (eexists; reflexivity).
  exfalso. eapply H; [reflexivity | exact E].
Qed.

(** A tool call on a validated argument is the tool body on the field. *)
Lemma call_tool_valid (t : tool) (raw : json) (v : string) (s : state World) :
  validate_str_field (field_of t) raw = inr v ->
  call_tool P t raw s = tool_body P t v s.
Proof.
  intros H.
  destruct t; cbn in H; unfold call_tool, page_tool, search_tool,
    validate_WikipediaPageInput, validate_WikipediaSearchInput;
    rewrite H; reflexivity.
Qed.

(** C5.  For every tool, an argument that is not a dictionary, or lacks the
    tool's field, or holds a value that is not a string under it, fails
    validation: the call raises [ValidationError] and leaves the state as it
    was, so the body did not run and no provider call was made. *)
Theorem malformed_input_rejected (t : tool) (raw : json) (s : state World) :
  (forall d v, raw = JObj d -> dict_get (field_of t) d <> Some (JStr v)) ->
  (exists m, call_tool P t raw s = (Raised (ValidationError m), s))
  /\ new_events s (call_tool P t raw s) = [].
Proof.
  intros H. apply validate_str_field_error in H. destruct H as [m Hm].
  assert (Hrun : call_tool P t raw s = (Raised (ValidationError m), s)).
  { destruct t; cbn in Hm; unfold call_tool, page_tool, search_tool,
      validate_WikipediaPageInput, validate_WikipediaSearchInput;
      rewrite Hm; reflexivity. }
  split.
  - exists m. exact Hrun.
  - rewrite Hrun. run_events. reflexivity.
Qed.

(** C4, as the code has it.  The field must be a string and nothing more:
    for every tool, an argument whose field is the empty string passes
    validation, the body runs on it, and the first provider call receives the
    empty string. *)
Theorem empty_field_accepted (t : tool) (s : state World) :
  call_tool P t (JObj [(field_of t, JStr "")]) s = tool_body P t "" s
  /\ exists ev rest,
       new_events s (call_tool P t (JObj [(field_of t, JStr "")]) s) = ev :: rest
       /\ ev_call ev = entry_call t "".
Proof.
  assert (H : call_tool P t (JObj [(field_of t, JStr "")]) s = tool_body P t "" s).
  { apply call_tool_valid. destruct t; reflexivity. }
  split; [exact H |]. rewrite H.
  destruct t; unfold_tools; cbn; case_provider;
    try (destruct e; cbn); run_events;
    do 2 eexists; split; reflexivity.
Qed.

(** C6.  For every tool, every field value and every state: when the
    provider answers an exception to an entry the tool makes (its entry
    call, or its second entry after a lookup that returned a page) and the
    tool does not recover that exception, the run raises [ToolError] whose
    message is the tool's label followed by [str(e)]; and whatever a run
    raises is such a [ToolError] for an exception the provider answered, so
    no other exception class leaves a tool body. *)
Theorem provider_exception_translated (t : tool) (v : string) (s : state World) :
  (forall e0,
      provider_failure P t v (world s) = Some e0 ->
      recovered t e0 = false ->
      fst (tool_body P t v s) = Raised (ToolError (label t ++ py_str e0)))
  /\ (forall e,
        fst (tool_body P t v s) = Raised e ->
        exists e0,
          provider_failure P t v (world s) = Some e0
          /\ recovered t e0 = false
          /\ e = ToolError (label t ++ py_str e0)).
Proof.
  destruct t; unfold provider_failure, follow_up, answer_json;
    unfold_tools; cbn; case_provider;
    try (destruct e; cbn);
    (split;
     [ intros e0 H Hrec; inversion H; subst; try discriminate; reflexivity
     | intros e' H; inversion H; subst; eexists; repeat split ]).
Qed.

(** Every run ends in a complete result of the tool's shape or in a
    [ToolError]. *)
Lemma tool_outcome_total (t : tool) (v : string) (s : state World) :
  (exists j, fst (tool_body P t v s) = Returned j /\ well_formed t j = true)
  \/ (exists m, fst (tool_body P t v s) = Raised (ToolError m)).
Proof.
  destruct t; unfold_tools; cbn; case_provider; try (destruct e; cbn);
    first [ left; eexists; split;
            [ reflexivity | cbn; rewrite ?forallb_is_str; reflexivity ]
          | right; eexists; reflexivity ].
Qed.

Lemma recovered_result_well_formed (t : tool) (e : exn) :
  recovered t e = true -> well_formed t (recovered_result t e) = true.
Proof.
  destruct t; cbn; try discriminate; intros _.
  - reflexivity.
  - rewrite forallb_is_str. reflexivity.
Qed.

(** C9.  For every tool and every field value: when the first provider call
    of the run raises, that call is the only one the run makes (no retry, no
    further call); the run then raises [ToolError] with the tool's label
    and [str(e)], unless the exception is of the class the tool recovers, in
    which case it returns the complete recovered result; and every run ends
    in one complete result of the tool's shape or in one [ToolError]. *)
Theorem first_failure_is_final (t : tool) (v : string) (s : state World) (e0 : exn) :
  first_raised (new_events s (tool_body P t v s)) = Some e0 ->
  new_events s (tool_body P t v s)
  = [{| ev_call := entry_call t v; ev_raised := Some e0 |}]
  /\ fst (tool_body P t v s)
     = (if recovered t e0
        then Returned (recovered_result t e0)
        else Raised (ToolError (label t ++ py_str e0)))
  /\ (recovered t e0 = true -> well_formed t (recovered_result t e0) = true)
  /\ ((exists j, fst (tool_body P t v s) = Returned j /\ well_formed t j = true)
      \/ (exists m, fst (tool_body P t v s) = Raised (ToolError m))).
Proof.
  intros H. split; [| split; [| split]].
  3: apply recovered_result_well_formed.
  3: apply tool_outcome_total.
  all: revert H; destruct t; unfold_tools; cbn; case_provider;
    try (destruct e; cbn); run_events;
    intros H; inversion H; subst; reflexivity.
Qed.

End Catalog.

Section ResolvedPage.

Variable World : Type.
Variable P : Provider World.

Lemma get_summary_run (input : WikipediaPageInput) (s : state World) :
  fst (get_summary P input s) =
  match fst (wikipedia_summary P (page input) (world s)) with
  | inr sm => Returned (JObj [("summary", JStr sm)])
  | inl e => Raised (ToolError ("Summary error: " ++ py_str e))
  end.
Proof.
  unfold_tools. cbn. case_provider; reflexivity.
Qed.

Lemma get_title_run (input : WikipediaPageInput) (s : state World) :
  fst (get_title P input s) =
  match fst (wikipedia_page P (page input) (world s)) with
  | inr p => Returned (JObj [("title", JStr (title p))])
  | inl e => Raised (ToolError ("Title error: " ++ py_str e))
  end.
Proof.
  unfold_tools. cbn. case_provider; reflexivity.
Qed.

Lemma get_url_run (input : WikipediaPageInput) (s : state World) :
  fst (get_url P input s) =
  match fst (wikipedia_page P (page input) (world s)) with
  | inr p => Returned (JObj [("url", JStr (url p))])
  | inl e => Raised (ToolError ("URL error: " ++ py_str e))
  end.
Proof.
  unfold_tools. cbn. case_provider; reflexivity.
Qed.

Lemma get_page_id_run (input : WikipediaPageInput) (s : state World) :
  fst (get_page_id P input s) =
  match fst (wikipedia_page P (page input) (world s)) with
  | inr p => Returned (JObj [("page_id", JStr (pageid p))])
  | inl e => Raised (ToolError ("Page ID error: " ++ py_str e))
  end.
Proof.
  unfold_tools. cbn. case_provider; reflexivity.
Qed.

(** C8, as the code has it.  For every title that [wikipedia.page] resolves
    to a page [p]: [get_title], [get_url] and [get_page_id] return the
    title, the url and the page id of that one page, unchanged; [get_summary]
    returns the text [wikipedia.summary] gives for the title, unchanged (the
    tools do not test the values for emptiness); and a second call of
    [get_title], [get_url] or [get_page_id] in any state where the provider
    answers the page lookup as before yields the result of the first. *)
Theorem resolved_page_values (t : string) (s : state World) (p : WikipediaPage) :
  fst (wikipedia_page P t (world s)) = inr p ->
  fst (get_title P {| page := t |} s) = Returned (JObj [("title", JStr (title p))])
  /\ fst (get_url P {| page := t |} s) = Returned (JObj [("url", JStr (url p))])
  /\ fst (get_page_id P {| page := t |} s)
     = Returned (JObj [("page_id", JStr (pageid p))])
  /\ (forall sm,
        fst (wikipedia_summary P t (world s)) = inr sm ->
        fst (get_summary P {| page := t |} s) = Returned (JObj [("summary", JStr sm)]))
  /\ (forall s',
        fst (wikipedia_page P t (world s')) = fst (wikipedia_page P t (world s)) ->
        fst (get_title P {| page := t |} s') = fst (get_title P {| page := t |} s)
        /\ fst (get_url P {| page := t |} s') = fst (get_url P {| page := t |} s)
        /\ fst (get_page_id P {| page := t |} s')
           = fst (get_page_id P {| page := t |} s)).
Proof.
  intros H. split; [| split; [| split; [| split]]].
  - rewrite get_title_run. cbn [page]. rewrite H. reflexivity.
  - rewrite get_url_run. cbn [page]. rewrite H. reflexivity.
  - rewrite get_page_id_run. cbn [page]. rewrite H. reflexivity.
  - intros sm Hsm. rewrite get_summary_run. cbn [page]. rewrite Hsm. reflexivity.
  - intros s' Hs'.
    rewrite !get_title_run, !get_url_run, !get_page_id_run. cbn [page].
    rewrite Hs'. repeat split; reflexivity.
Qed.

End ResolvedPage.

(** * Concrete scenarios on the test double *)

Module Scenarios.

Import Demo.

(** A missing page is reported as absent, an existing one as present, and
    the library's own failure on the empty title as an error. *)
Lemma check_page_exists_scenarios :
  fst (check_page_exists provider {| page := "XYZNOPAGEQQQ123" |} s0)
  = Returned (JObj [("exists", JBool false)])
  /\ fst (check_page_exists provider {| page := "Albert Einstein" |} s0)
     = Returned (JObj [("exists", JBool true)])
  /\ fst (check_page_exists provider {| page := "" |} s0)
     = Raised (ToolError
                 "Existence check error: An unknown error occured: missing title").
Proof.
  split; [| split].
  - apply (proj1 (check_page_exists_spec provider {| page := "XYZNOPAGEQQQ123" |} s0)).
    eexists. reflexivity.
  - apply (proj1 (proj2 (check_page_exists_spec provider
                           {| page := "Albert Einstein" |} s0)) einstein).
    reflexivity.
  - apply (proj2 (proj2 (check_page_exists_spec provider {| page := "" |} s0))
             (OtherException "WikipediaException"
                "An unknown error occured: missing title"));
      reflexivity.
Defined.

(** The ambiguous title "Mercury" makes [check_page_exists] fail. *)
Lemma check_page_exists_mercury :
  fst (wikipedia_page provider "Mercury" (world s0))
  = inl (DisambiguationError "Mercury may refer to: several pages" mercury_options)
  /\ fst (check_page_exists provider {| page := "Mercury" |} s0)
     = Raised (ToolError "Existence check error: Mercury may refer to: several pages").
Proof.
  split; [reflexivity |].
  apply (@check_page_exists_ambiguous nat provider {| page := "Mercury" |} s0
            "Mercury may refer to: several pages" mercury_options).
  reflexivity.
Defined.

(** "Mercury" lists its candidates; an existing page has none. *)
Lemma disambiguation_options_scenarios :
  fst (disambiguation_options provider {| page := "Mercury" |} s0)
  = Returned (disambiguation_result true
                ["Mercury (planet)"; "Mercury (element)"; "Mercury (mythology)"])
  /\ fst (disambiguation_options provider {| page := "Albert Einstein" |} s0)
     = Returned (disambiguation_result false []).
Proof.
  split.
  - apply (proj1 (disambiguation_options_spec provider {| page := "Mercury" |} s0)).
    eexists. reflexivity.
  - apply (proj1 (proj2 (disambiguation_options_spec provider
                           {| page := "Albert Einstein" |} s0)) einstein).
    reflexivity.
Defined.

(** A disambiguation page without candidate links: the provider raises
    [DisambiguationError] with an empty list, the tool returns that empty
    list, and the property with the non-empty list fails. *)
Lemma disambiguation_options_empty_list :
  ~ nonempty_options_claim provider {| page := "Bare list" |} s0.
Proof.
  unfold nonempty_options_claim. intros [_ H].
  destruct H as [l [Hl Hrun]].
  - exists "Bare list may refer to: ", []. reflexivity.
  - cbn in Hrun. unfold disambiguation_result, str_list in Hrun.
    injection Hrun as Hrun. destruct l; [apply Hl; reflexivity | discriminate].
Qed.

(** A query without matches. *)
Lemma search_pages_no_match_scenario :
  fst (wikipedia_search provider "a string guaranteed to match nothing" (world s0))
  = inr []
  /\ fst (search_pages provider {| query := "a string guaranteed to match nothing" |} s0)
     = Returned (JObj [("results", JList [])]).
Proof.
  split; [reflexivity |].
  apply (search_pages_no_match provider
           {| query := "a string guaranteed to match nothing" |} s0).
  reflexivity.
Defined.

(** On an existing page [get_html] and [get_content] enter the library
    twice, [get_title] once. *)
Lemma get_html_two_calls :
  length (new_events s0 (tool_body provider GetHtml "Albert Einstein" s0)) = 2
  /\ length (new_events s0 (tool_body provider GetContent "Albert Einstein" s0)) = 2
  /\ length (new_events s0 (tool_body provider GetTitle "Albert Einstein" s0)) = 1.
Proof.
  split; [| split].
  - apply (proj2 (provider_calls_per_invocation provider GetHtml "Albert Einstein" s0)).
  - apply (proj2 (provider_calls_per_invocation provider GetContent "Albert Einstein" s0)).
  - apply (proj2 (provider_calls_per_invocation provider GetTitle "Albert Einstein" s0)).
Defined.

(** [check_page_exists] and [disambiguation_options] make one provider
    call, not the two of the design policy. *)
Lemma existence_check_single_call :
  length (new_events s0 (tool_body provider CheckPageExists "Albert Einstein" s0))
  <> policy_call_count CheckPageExists
  /\ length (new_events s0 (tool_body provider DisambiguationOptions "Mercury" s0))
     <> policy_call_count DisambiguationOptions.
Proof.
  split; cbn; discriminate.
Qed.

(** An argument without the [page] field never reaches the provider. *)
Lemma missing_field_scenario :
  (forall d v, JObj [("title", JStr "Albert Einstein")] = JObj d ->
               dict_get (field_of GetSummary) d <> Some (JStr v))
  /\ call_tool provider GetSummary (JObj [("title", JStr "Albert Einstein")]) s0
     = (Raised (ValidationError "page: Field required"), s0).
Proof.
  assert (H : forall d v, JObj [("title", JStr "Albert Einstein")] = JObj d ->
                          dict_get (field_of GetSummary) d <> Some (JStr v)).
  { intros d v E. injection E as <-. cbn. discriminate. }
  split; [exact H |].
  destruct (@malformed_input_rejected nat provider GetSummary
              (JObj [("title", JStr "Albert Einstein")]) s0 H) as [[m Hm] _].
  rewrite Hm. symmetry. rewrite <- Hm. reflexivity.
Defined.

(** The empty title passes validation and reaches [wikipedia.summary]. *)
Lemma empty_title_reaches_provider :
  ~ empty_field_rejected_claim provider GetSummary s0.
Proof.
  unfold empty_field_rejected_claim. intros [_ H]. cbn in H. discriminate.
Qed.

Lemma empty_field_scenario :
  call_tool provider SearchPages (query_arg "") s0
  = tool_body provider SearchPages "" s0.
Proof.
  apply (proj1 (empty_field_accepted provider SearchPages s0)).
Defined.

(** The library's failure on the empty title, as [get_summary] and
    [search_pages] report it; and its failure on reading the categories of
    an existing page that has none, as [get_categories] reports it. *)
Lemma tool_error_scenarios :
  fst (tool_body provider GetSummary "" s0)
  = Raised (ToolError "Summary error: An unknown error occured: missing title")
  /\ fst (tool_body provider SearchPages "" s0)
     = Raised (ToolError "Search error: An unknown error occured: missing search")
  /\ fst (tool_body provider GetCategories "Blank stub" s0)
     = Raised (ToolError "Categories error: 'categories'").
Proof.
  split; [| split].
  - apply (proj1 (provider_exception_translated provider GetSummary "" s0)
             (OtherException "WikipediaException"
                "An unknown error occured: missing title"));
      reflexivity.
  - apply (proj1 (provider_exception_translated provider SearchPages "" s0)
             (OtherException "WikipediaException"
                "An unknown error occured: missing search"));
      reflexivity.
  - apply (proj1 (provider_exception_translated provider GetCategories "Blank stub" s0)
             (OtherException "KeyError" "'categories'"));
      reflexivity.
Defined.

(** A missing page ends [get_content] after its one call. *)
Lemma first_failure_scenario :
  first_raised (new_events s0 (tool_body provider GetContent "XYZNOPAGEQQQ123" s0))
  = Some (PageError "Page id XYZNOPAGEQQQ123 does not match any pages. Try another id!")
  /\ length (new_events s0 (tool_body provider GetContent "XYZNOPAGEQQQ123" s0)) = 1
  /\ fst (tool_body provider GetContent "XYZNOPAGEQQQ123" s0)
     = Raised (ToolError
         "Content error: Page id XYZNOPAGEQQQ123 does not match any pages. Try another id!").
Proof.
  assert (H : first_raised
                (new_events s0 (tool_body provider GetContent "XYZNOPAGEQQQ123" s0))
              = Some (PageError
                  "Page id XYZNOPAGEQQQ123 does not match any pages. Try another id!"))
    by reflexivity.
  split; [exact H |].
  destruct (@first_failure_is_final nat provider GetContent "XYZNOPAGEQQQ123" s0 _ H)
    as [Hev [Hout _]].
  split.
  - rewrite Hev. reflexivity.
  - rewrite Hout. reflexivity.
Defined.

(** "Albert Einstein" resolves to its page. *)
Lemma resolved_page_scenario :
  fst (wikipedia_page provider "Albert Einstein" (world s0)) = inr einstein
  /\ fst (get_title provider {| page := "Albert Einstein" |} s0)
     = Returned (JObj [("title", JStr "Albert Einstein")])
  /\ fst (get_page_id provider {| page := "Albert Einstein" |} s0)
     = Returned (JObj [("page_id", JStr "736")]).
Proof.
  assert (H : fst (wikipedia_page provider "Albert Einstein" (world s0)) = inr einstein)
    by reflexivity.
  split; [exact H |].
  destruct (@resolved_page_values nat provider "Albert Einstein" s0 einstein H)
    as [Ht [_ [Hid _]]].
  split; [exact Ht | exact Hid].
Defined.

(** An existing page whose extract is empty: [get_summary] returns the
    empty string. *)
Lemma blank_summary_returned :
  ~ nonempty_values_claim provider "Blank stub" s0.
Proof.
  unfold nonempty_values_claim. intros H.
  destruct (H blank eq_refl) as [sm [ti [u [pid [Hsm [_ [_ [_ [Hrun _]]]]]]]]].
  cbn in Hrun. injection Hrun as Hrun. apply Hsm. symmetry. exact Hrun.
Qed.

End Scenarios.

(** * Further properties of the tool bodies *)

Section CallTrace.

Variable World : Type.
Variable P : Provider World.

(** X1.  The entries of a run into the library, in order: every tool first
    makes its one entry call with the field value exactly as given (no
    trimming, no change of case); the six tools of [follow_up_call] then
    make their second entry on the page the lookup returned, and only when
    the lookup returned one; no tool makes any other entry. *)
Theorem provider_call_trace (t : tool) (v : string) (s : state World) :
  map ev_call (new_events s (tool_body P t v s)) =
  (entry_call t v ::
     match follow_up_call t, fst (wikipedia_page P v (world s)) with
     | Some access, inr p => [access p]
     | _, _ => []
     end)%list.
Proof.
  destruct t; unfold_tools; cbn; case_provider;
    try (destruct e; cbn); run_events; reflexivity.
Qed.

(** Whatever a tool body raises carries the label of that tool. *)
Lemma raised_has_label (t : tool) (v : string) (s : state World) (e : exn) :
  fst (tool_body P t v s) = Raised e ->
  exists m, e = ToolError (label t ++ m).
Proof.
  destruct t; unfold_tools; cbn; case_provider;
    try (destruct e0; cbn); intros H; inversion H; subst;
    eexists; reflexivity.
Qed.

End CallTrace.

Section ErrorMessages.

Lemma append_inv_head (a m m' : string) : a ++ m = a ++ m' -> m = m'.
Proof.
  induction a as [|c a IH]; cbn; intros H.
  - exact H.
  - injection H as H. apply IH. exact H.
Qed.

(** No label is the start of a message built with another label. *)
Lemma label_prefix_free (t t' : tool) (m m' : string) :
  label t ++ m = label t' ++ m' -> t = t'.
Proof.
  destruct t, t'; cbn; intros H; try reflexivity; discriminate H.
Qed.

Variable World : Type.
Variable P : Provider World.

(** X2.  A [ToolError] tells which tool raised it and what the provider
    said: when two runs raise the same exception they are runs of the same
    tool, and the message is that tool's label followed by one and the same
    provider message. *)
Theorem raised_error_identifies_tool (t t' : tool) (v v' : string)
  (s s' : state World) (e : exn) :
  fst (tool_body P t v s) = Raised e ->
  fst (tool_body P t' v' s') = Raised e ->
  t = t'
  /\ exists m, e = ToolError (label t ++ m)
       /\ forall m', e = ToolError (label t' ++ m') -> m' = m.
Proof.
  intros H H'.
  apply raised_has_label in H. destruct H as [m Hm].
  apply raised_has_label in H'. destruct H' as [m' Hm'].
  assert (Ht : t = t').
  { subst e. injection Hm' as Hm'. eapply label_prefix_free. exact Hm'. }
  subst t'. split; [reflexivity |].
  exists m. split; [exact Hm |].
  intros m'' Hm''. subst e. injection Hm'' as Hm''.
  apply append_inv_head in Hm''. symmetry. exact Hm''.
Qed.

End ErrorMessages.

Section PageTools.

Variable World : Type.
Variable P : Provider World.

(** X3.  [get_html]: a failed page lookup is reported as an HTML error and
    leaves the world as the lookup left it; after a successful lookup the
    page's [html()] runs in the world the lookup left, its text is returned
    under ["html"], and its failure is reported as an HTML error too. *)
Theorem get_html_spec (input : WikipediaPageInput) (s : state World) :
  (forall e w1,
      wikipedia_page P (page input) (world s) = (inl e, w1) ->
      fst (get_html P input s) = Raised (ToolError ("HTML error: " ++ py_str e))
      /\ world (snd (get_html P input s)) = w1)
  /\ (forall p w1 h w2,
        wikipedia_page P (page input) (world s) = (inr p, w1) ->
        page_html P p w1 = (inr h, w2) ->
        fst (get_html P input s) = Returned (JObj [("html", JStr h)])
        /\ world (snd (get_html P input s)) = w2)
  /\ (forall p w1 e w2,
        wikipedia_page P (page input) (world s) = (inr p, w1) ->
        page_html P p w1 = (inl e, w2) ->
        fst (get_html P input s) = Raised (ToolError ("HTML error: " ++ py_str e))
        /\ world (snd (get_html P input s)) = w2).
Proof.
  unfold_tools. cbn. split; [| split].
  - intros e w1 H. rewrite H. cbn. split; reflexivity.
  - intros p w1 h w2 H H2. rewrite H. cbn. rewrite H2. cbn. split; reflexivity.
  - intros p w1 e w2 H H2. rewrite H. cbn. rewrite H2. cbn. split; reflexivity.
Qed.

(** X4.  [get_url], [get_title] and [get_page_id], which read an
    attribute set when the page object was built, return a result exactly
    when the page lookup returns a page, and the result is then the one-key
    dictionary holding that page's attribute as the provider gave it. *)
Theorem attribute_tool_spec (t : tool) (key : string) (attr : WikipediaPage -> json)
  (v : string) (s : state World) (j : json) :
  eager_attribute t = Some (key, attr) ->
  (fst (tool_body P t v s) = Returned j
   <-> exists p, fst (wikipedia_page P v (world s)) = inr p /\ j = JObj [(key, attr p)]).
Proof.
  intros H.
  destruct t; cbn in H; try discriminate H; injection H as <- <-;
    unfold_tools; cbn; case_provider;
    (split;
     [ intros H; inversion H; subst; try (eexists; split; reflexivity)
     | intros [p [Hp Hj]]; inversion Hp; subst; reflexivity ]).
Qed.

(** X5.  The list-valued tools pass the provider's list on as it is: the
    tool returns the list [l] under its key exactly when the lookup returns
    a page and the read of the page's property, in the world the lookup
    left, returns [l]: same elements, same order.  (When that read raises,
    as the library does on a page without the property, the tool returns no
    list.) *)
Theorem list_tools_faithful (input : WikipediaPageInput) (s : state World)
  (l : list string) :
  (fst (get_images P input s) = Returned (JObj [("images", str_list l)])
   <-> exists p w1, wikipedia_page P (page input) (world s) = (inr p, w1)
                    /\ fst (page_images P p w1) = inr l)
  /\ (fst (get_links P input s) = Returned (JObj [("links", str_list l)])
      <-> exists p w1, wikipedia_page P (page input) (world s) = (inr p, w1)
                       /\ fst (page_links P p w1) = inr l)
  /\ (fst (get_references P input s) = Returned (JObj [("references", str_list l)])
      <-> exists p w1, wikipedia_page P (page input) (world s) = (inr p, w1)
                       /\ fst (page_references P p w1) = inr l)
  /\ (fst (get_categories P input s) = Returned (JObj [("categories", str_list l)])
      <-> exists p w1, wikipedia_page P (page input) (world s) = (inr p, w1)
                       /\ fst (page_categories P p w1) = inr l).
Proof.
  unfold_tools. cbn.
  destruct (wikipedia_page P (page input) (world s)) as [[e | p] w]; cbn.
  - repeat split;
      try (intros H; discriminate H);
      intros [p' [w1 [Hp _]]]; discriminate Hp.
  - split; [| split; [| split]].
    + destruct (page_images P p w) as [[e1 | l1] w1] eqn:E; cbn; split.
      * intros H. discriminate H.
      * intros [p' [w' [Hp Hl]]]. injection Hp as <- <-.
        rewrite E in Hl. discriminate Hl.
      * intros H. injection H as H. apply map_JStr_inj in H. subst l1.
        exists p, w. split; [reflexivity | rewrite E; reflexivity].
      * intros [p' [w' [Hp Hl]]]. injection Hp as <- <-.
        rewrite E in Hl. injection Hl as <-. reflexivity.
    + destruct (page_links P p w) as [[e1 | l1] w1] eqn:E; cbn; split.
      * intros H. discriminate H.
      * intros [p' [w' [Hp Hl]]]. injection Hp as <- <-.
        rewrite E in Hl. discriminate Hl.
      * intros H. injection H as H. apply map_JStr_inj in H. subst l1.
        exists p, w. split; [reflexivity | rewrite E; reflexivity].
      * intros [p' [w' [Hp Hl]]]. injection Hp as <- <-.
        rewrite E in Hl. injection Hl as <-. reflexivity.
    + destruct (page_references P p w) as [[e1 | l1] w1] eqn:E; cbn; split.
      * intros H. discriminate H.
      * intros [p' [w' [Hp Hl]]]. injection Hp as <- <-.
        rewrite E in Hl. discriminate Hl.
      * intros H. injection H as H. apply map_JStr_inj in H. subst l1.
        exists p, w. split; [reflexivity | rewrite E; reflexivity].
      * intros [p' [w' [Hp Hl]]]. injection Hp as <- <-.
        rewrite E in Hl. injection Hl as <-. reflexivity.
    + destruct (page_categories P p w) as [[e1 | l1] w1] eqn:E; cbn; split.
      * intros H. discriminate H.
      * intros [p' [w' [Hp Hl]]]. injection Hp as <- <-.
        rewrite E in Hl. discriminate Hl.
      * intros H. injection H as H. apply map_JStr_inj in H. subst l1.
        exists p, w. split; [reflexivity | rewrite E; reflexivity].
      * intros [p' [w' [Hp Hl]]]. injection Hp as <- <-.
        rewrite E in Hl. injection Hl as <-. reflexivity.
Qed.

(** X11.  The six tools that enter the library a second time ([get_content],
    [get_html], [get_images], [get_links], [get_references],
    [get_categories]): a failed page lookup is reported with the tool's
    label and the second entry is not made; after a successful lookup the
    second entry runs on the returned page in the world the lookup left,
    its value is returned under the tool's key, and its failure is reported
    with the tool's label and [str(e)]. *)
Theorem follow_up_tool_spec (t : tool) (key : string)
  (access : WikipediaPage -> World -> (exn + json) * World)
  (v : string) (s : state World) :
  follow_up P t = Some (key, access) ->
  (forall e w1,
      wikipedia_page P v (world s) = (inl e, w1) ->
      fst (tool_body P t v s) = Raised (ToolError (label t ++ py_str e))
      /\ world (snd (tool_body P t v s)) = w1)
  /\ (forall p w1 j w2,
        wikipedia_page P v (world s) = (inr p, w1) ->
        access p w1 = (inr j, w2) ->
        fst (tool_body P t v s) = Returned (JObj [(key, j)])
        /\ world (snd (tool_body P t v s)) = w2)
  /\ (forall p w1 e w2,
        wikipedia_page P v (world s) = (inr p, w1) ->
        access p w1 = (inl e, w2) ->
        fst (tool_body P t v s) = Raised (ToolError (label t ++ py_str e))
        /\ world (snd (tool_body P t v s)) = w2).
Proof.
  intros H. split; [| split].
  - intros e w1 Hp.
    destruct t; cbn in H; try discriminate H;
      unfold_tools; cbn; rewrite Hp; cbn; split; reflexivity.
  - intros p w1 j w2 Hp Ha.
    destruct t; cbn in H; try discriminate H; injection H as <- <-;
      unfold answer_json in Ha; unfold_tools; cbn; rewrite Hp; cbn;
      revert Ha; case_provider; intros Ha; inversion Ha; subst;
      split; reflexivity.
  - intros p w1 e w2 Hp Ha.
    destruct t; cbn in H; try discriminate H; injection H as <- <-;
      unfold answer_json in Ha; unfold_tools; cbn; rewrite Hp; cbn;
      revert Ha; case_provider; intros Ha; inversion Ha; subst;
      split; reflexivity.
Qed.

End PageTools.

Section SingleCallTools.

Variable World : Type.
Variable P : Provider World.

(** X6.  [search_pages] returns [{"results": l}] exactly when
    [wikipedia.search] returns [l] for the query (same titles, same order),
    and reports every exception of the search, whatever its class, as a
    search error with the provider's message. *)
Theorem search_pages_spec (input : WikipediaSearchInput) (s : state World) :
  (forall l,
      fst (search_pages P input s) = Returned (JObj [("results", str_list l)])
      <-> fst (wikipedia_search P (query input) (world s)) = inr l)
  /\ (forall e,
        fst (wikipedia_search P (query input) (world s)) = inl e ->
        fst (search_pages P input s) = Raised (ToolError ("Search error: " ++ py_str e))).
Proof.
  rewrite search_pages_run.
  destruct (fst (wikipedia_search P (query input) (world s))) as [e | r]; split.
  - intros l. split; intros H; discriminate H.
  - intros e' H. injection H as <-. reflexivity.
  - intros l. split; intros H.
    + injection H as H. apply map_JStr_inj in H. rewrite H. reflexivity.
    + injection H as <-. reflexivity.
  - intros e H. discriminate H.
Qed.

(** X7.  [get_summary] depends on [wikipedia.summary] alone: it returns
    [{"summary": sm}] exactly when that call returns [sm], and it recovers
    nothing, so a missing page and an ambiguous title are both reported as a
    summary error with the provider's message. *)
Theorem get_summary_spec (input : WikipediaPageInput) (s : state World) :
  (forall sm,
      fst (get_summary P input s) = Returned (JObj [("summary", JStr sm)])
      <-> fst (wikipedia_summary P (page input) (world s)) = inr sm)
  /\ (forall e,
        fst (wikipedia_summary P (page input) (world s)) = inl e ->
        fst (get_summary P input s) = Raised (ToolError ("Summary error: " ++ py_str e))).
Proof.
  rewrite get_summary_run.
  destruct (fst (wikipedia_summary P (page input) (world s))) as [e | r]; split.
  - intros sm. split; intros H; discriminate H.
  - intros e' H. injection H as <-. reflexivity.
  - intros sm. split; intros H; injection H as <-; reflexivity.
  - intros e H. discriminate H.
Qed.

End SingleCallTools.

Section Composition.

Variable World : Type.
Variable P : Provider World.

(** X8.  What an existence check promises for the page tools.  In any
    state where the provider answers the page lookup as it did for the
    check: after [{"exists": True}] the tools that read an attribute set
    with the page ([get_url], [get_title], [get_page_id]) return that
    attribute; after [{"exists": False}] the lookup raised [PageError] and
    each of the nine tools that look the page up without recovering raises
    [ToolError] with its own label followed by the message of that
    [PageError]. *)
Theorem existence_check_predicts_page_tools (t : tool) (v : string)
  (s s' : state World) :
  fst (wikipedia_page P v (world s')) = fst (wikipedia_page P v (world s)) ->
  (fst (check_page_exists P {| page := v |} s) = Returned (JObj [("exists", JBool true)]) ->
   forall key attr,
     eager_attribute t = Some (key, attr) ->
     exists p, fst (tool_body P t v s') = Returned (JObj [(key, attr p)]))
  /\ (fst (check_page_exists P {| page := v |} s)
      = Returned (JObj [("exists", JBool false)]) ->
      reads_page t = true ->
      exists m,
        fst (wikipedia_page P v (world s)) = inl (PageError m)
        /\ fst (tool_body P t v s') = Raised (ToolError (label t ++ m))).
Proof.
  intros Hsame. rewrite check_page_exists_run. cbn [page].
  destruct (fst (wikipedia_page P v (world s))) as [e | p] eqn:Hs.
  - split.
    + destruct (isinstance_PageError e); intros H; discriminate H.
    + destruct (isinstance_PageError e) eqn:Hk; [| intros H; discriminate H].
      apply isinstance_PageError_inv in Hk. destruct Hk as [m ->].
      intros _ Hr. exists m. split; [reflexivity |].
      destruct t; cbn in Hr; try discriminate Hr;
        unfold_tools; cbn in *;
        destruct (wikipedia_page P v (world s')) as [[e' | p'] w'];
        cbn in *; try discriminate Hsame;
        injection Hsame as ->; reflexivity.
  - split.
    + intros _ key attr Hattr.
      destruct t; cbn in Hattr; try discriminate Hattr;
        injection Hattr as <- <-;
        unfold_tools; cbn in *;
        destruct (wikipedia_page P v (world s')) as [[e' | p'] w'];
        cbn in *; try discriminate Hsame;
        eexists; reflexivity.
    + intros H. discriminate H.
Qed.

(** X9.  [check_page_exists] and [disambiguation_options] on one title, the
    provider answering the lookup the same way for both: the page exists
    exactly when there is nothing to disambiguate; a missing page makes
    [disambiguation_options] raise (it is not reported as unambiguous); and
    an ambiguous title makes [check_page_exists] raise. *)
Theorem existence_and_disambiguation (input : WikipediaPageInput) (s s' : state World) :
  fst (wikipedia_page P (page input) (world s'))
  = fst (wikipedia_page P (page input) (world s)) ->
  (fst (check_page_exists P input s) = Returned (JObj [("exists", JBool true)])
   <-> fst (disambiguation_options P input s') = Returned (disambiguation_result false []))
  /\ (fst (check_page_exists P input s) = Returned (JObj [("exists", JBool false)]) ->
      exists m,
        fst (disambiguation_options P input s')
        = Raised (ToolError ("Disambiguation check error: " ++ m)))
  /\ (forall l,
        fst (disambiguation_options P input s') = Returned (disambiguation_result true l) ->
        exists m,
          fst (check_page_exists P input s)
          = Raised (ToolError ("Existence check error: " ++ m))).
Proof.
  intros Hsame.
  rewrite check_page_exists_run, disambiguation_options_run, Hsame.
  destruct (fst (wikipedia_page P (page input) (world s))) as [e | p].
  - destruct e; cbn; (split; [split; intros H; discriminate H |]);
      (split; [ intros H; try discriminate H; eexists; reflexivity
              | intros l H; try discriminate H; eexists; reflexivity ]).
  - split; [split; reflexivity |].
    split; [intros H; discriminate H | intros l H; discriminate H].
Qed.

End Composition.

Section Arguments.

Variable World : Type.
Variable P : Provider World.

(** X10.  The provider is contacted exactly for the well-formed arguments:
    a tool call logs a provider call if and only if its argument is a
    dictionary with a string under the tool's field; the call is then the
    tool body on that string, whatever other keys the dictionary holds. *)
Theorem provider_reached_iff_valid (t : tool) (raw : json) (s : state World) :
  (new_events s (call_tool P t raw s) <> []
   <-> exists d v, raw = JObj d /\ dict_get (field_of t) d = Some (JStr v))
  /\ (forall d v,
        raw = JObj d -> dict_get (field_of t) d = Some (JStr v) ->
        call_tool P t raw s = tool_body P t v s).
Proof.
  assert (Hrun : forall d v,
             raw = JObj d -> dict_get (field_of t) d = Some (JStr v) ->
             call_tool P t raw s = tool_body P t v s).
  { intros d v Hraw Hget. apply call_tool_valid.
    apply validate_str_field_ok. exists d. split; assumption. }
  split; [| exact Hrun]. split.
  - intros Hev.
    destruct (validate_str_field (field_of t) raw) as [e | v] eqn:Hval.
    + exfalso. apply Hev.
      assert (Hcall : call_tool P t raw s = (Raised e, s)).
      { destruct t; cbn in Hval; unfold call_tool, page_tool, search_tool,
          validate_WikipediaPageInput, validate_WikipediaSearchInput;
          rewrite Hval; reflexivity. }
      rewrite Hcall. run_events. reflexivity.
    + apply validate_str_field_ok in Hval. destruct Hval as [d [Hraw Hget]].
      exists d, v. split; assumption.
  - intros [d [v [Hraw Hget]]]. rewrite (Hrun d v Hraw Hget).
    destruct t; unfold_tools; cbn; case_provider;
      try (destruct e; cbn); run_events; discriminate.
Qed.

End Arguments.

(** * Further scenarios on the test double *)

Module MoreScenarios.

Import Demo.

(** [get_html] on an existing page: the lookup, then [html()] on it. *)
Lemma get_html_trace :
  map ev_call (new_events s0 (tool_body provider GetHtml "Albert Einstein" s0))
  = [CallPage "Albert Einstein"; CallHtml einstein].
Proof.
  apply (provider_call_trace provider GetHtml "Albert Einstein" s0).
Defined.

(** Two failing runs of [get_summary] raise the same error; it names the
    tool. *)
Lemma same_error_same_tool :
  fst (tool_body provider GetSummary "" s0)
  = Raised (ToolError "Summary error: An unknown error occured: missing title")
  /\ fst (tool_body provider GetSummary "" s1)
     = Raised (ToolError "Summary error: An unknown error occured: missing title")
  /\ GetSummary = GetSummary.
Proof.
  assert (H0 : fst (tool_body provider GetSummary "" s0)
               = Raised (ToolError "Summary error: An unknown error occured: missing title"))
    by reflexivity.
  assert (H1 : fst (tool_body provider GetSummary "" s1)
               = Raised (ToolError "Summary error: An unknown error occured: missing title"))
    by reflexivity.
  split; [exact H0 |]. split; [exact H1 |].
  exact (proj1 (@raised_error_identifies_tool nat provider GetSummary GetSummary
                  "" "" s0 s1 _ H0 H1)).
Defined.

(** The rendered page of "Albert Einstein", and the render failure of the
    blank page. *)
Lemma get_html_scenarios :
  fst (get_html provider {| page := "Albert Einstein" |} s0)
  = Returned (JObj [("html",
       JStr "<p>Albert Einstein was a German-born theoretical physicist.</p>")])
  /\ fst (get_html provider {| page := "Blank stub" |} s0)
     = Raised (ToolError "HTML error: 'extract'").
Proof.
  split.
  - apply (proj1 (proj2 (@get_html_spec nat provider {| page := "Albert Einstein" |} s0))
             einstein 1
             "<p>Albert Einstein was a German-born theoretical physicist.</p>" 2);
      reflexivity.
  - apply (proj2 (proj2 (@get_html_spec nat provider {| page := "Blank stub" |} s0))
             blank 1 (OtherException "KeyError" "'extract'") 2);
      reflexivity.
Defined.

(** [get_url] on "Albert Einstein". *)
Lemma get_url_scenario :
  eager_attribute GetUrl = Some ("url", fun p => JStr (url p))
  /\ fst (tool_body provider GetUrl "Albert Einstein" s0)
     = Returned (JObj [("url", JStr "https://en.wikipedia.org/wiki/Albert_Einstein")]).
Proof.
  split; [reflexivity |].
  apply (proj2 (@attribute_tool_spec nat provider GetUrl "url" (fun p => JStr (url p))
                  "Albert Einstein" s0
                  (JObj [("url", JStr "https://en.wikipedia.org/wiki/Albert_Einstein")])
                  eq_refl)).
  exists einstein. split; reflexivity.
Defined.

(** The links of "Albert Einstein", and the empty image list the provider
    gives for the blank page. *)
Lemma list_tools_scenarios :
  fst (get_links provider {| page := "Albert Einstein" |} s0)
  = Returned (JObj [("links", str_list ["Physics"; "Ulm"])])
  /\ fst (get_images provider {| page := "Blank stub" |} s0)
     = Returned (JObj [("images", str_list [])]).
Proof.
  split.
  - apply (proj2 (proj1 (proj2 (@list_tools_faithful nat provider
                                  {| page := "Albert Einstein" |} s0
                                  ["Physics"; "Ulm"])))).
    exists einstein, 1. split; reflexivity.
  - apply (proj2 (proj1 (@list_tools_faithful nat provider
                           {| page := "Blank stub" |} s0 []))).
    exists blank, 1. split; reflexivity.
Defined.

(** The text of "Albert Einstein"; on the blank page, which exists, the
    reads of [categories] and [references] fail inside the library and the
    tools report the failure. *)
Lemma follow_up_scenarios :
  fst (tool_body provider GetContent "Albert Einstein" s0)
  = Returned (JObj [("content",
       JStr "Albert Einstein was a German-born theoretical physicist.")])
  /\ fst (tool_body provider GetCategories "Blank stub" s0)
     = Raised (ToolError "Categories error: 'categories'")
  /\ fst (tool_body provider GetReferences "Blank stub" s0)
     = Raised (ToolError "References error: 'extlinks'").
Proof.
  split; [| split].
  - apply (proj1 (proj2 (@follow_up_tool_spec nat provider GetContent _ _
                           "Albert Einstein" s0 eq_refl))
             einstein 1
             (JStr "Albert Einstein was a German-born theoretical physicist.") 2);
      reflexivity.
  - apply (proj2 (proj2 (@follow_up_tool_spec nat provider GetCategories _ _
                           "Blank stub" s0 eq_refl))
             blank 1 (OtherException "KeyError" "'categories'") 2);
      reflexivity.
  - apply (proj2 (proj2 (@follow_up_tool_spec nat provider GetReferences _ _
                           "Blank stub" s0 eq_refl))
             blank 1 (OtherException "KeyError" "'extlinks'") 2);
      reflexivity.
Defined.

(** A search with matches, and the library's failure on the empty query. *)
Lemma search_pages_scenarios :
  fst (search_pages provider {| query := "Einstein" |} s0)
  = Returned (JObj [("results", str_list ["Albert Einstein"; "Einstein family"])])
  /\ fst (search_pages provider {| query := "" |} s0)
     = Raised (ToolError "Search error: An unknown error occured: missing search").
Proof.
  split.
  - apply (proj2 (proj1 (@search_pages_spec nat provider {| query := "Einstein" |} s0)
                    ["Albert Einstein"; "Einstein family"])).
    reflexivity.
  - apply (proj2 (@search_pages_spec nat provider {| query := "" |} s0)
             (OtherException "WikipediaException"
                "An unknown error occured: missing search")).
    reflexivity.
Defined.

(** The summary of "Albert Einstein"; "Mercury" is a summary error. *)
Lemma get_summary_scenarios :
  fst (get_summary provider {| page := "Albert Einstein" |} s0)
  = Returned (JObj [("summary",
       JStr "Albert Einstein was a German-born theoretical physicist.")])
  /\ fst (get_summary provider {| page := "Mercury" |} s0)
     = Raised (ToolError "Summary error: Mercury may refer to: several pages").
Proof.
  split.
  - apply (proj2 (proj1 (@get_summary_spec nat provider {| page := "Albert Einstein" |} s0)
                    "Albert Einstein was a German-born theoretical physicist.")).
    reflexivity.
  - apply (proj2 (@get_summary_spec nat provider {| page := "Mercury" |} s0)
             (DisambiguationError "Mercury may refer to: several pages" mercury_options)).
    reflexivity.
Defined.

(** After the check says "Albert Einstein" exists, [get_title] in the next
    state returns a title; after it says the other title does not,
    [get_content] in the next state raises with the same message. *)
Lemma exists_then_title :
  fst (wikipedia_page provider "Albert Einstein" (world s1))
  = fst (wikipedia_page provider "Albert Einstein" (world s0))
  /\ fst (check_page_exists provider {| page := "Albert Einstein" |} s0)
     = Returned (JObj [("exists", JBool true)])
  /\ (exists p, fst (tool_body provider GetTitle "Albert Einstein" s1)
                = Returned (JObj [("title", JStr (title p))]))
  /\ fst (check_page_exists provider {| page := "XYZNOPAGEQQQ123" |} s0)
     = Returned (JObj [("exists", JBool false)])
  /\ (exists m, fst (wikipedia_page provider "XYZNOPAGEQQQ123" (world s0))
                = inl (PageError m)
                /\ fst (tool_body provider GetContent "XYZNOPAGEQQQ123" s1)
                   = Raised (ToolError (label GetContent ++ m))).
Proof.
  split; [reflexivity |]. split; [reflexivity |]. split; [| split].
  - apply (proj1 (@existence_check_predicts_page_tools nat provider GetTitle
                    "Albert Einstein" s0 s1 eq_refl) eq_refl
             "title" (fun p => JStr (title p)) eq_refl).
  - reflexivity.
  - apply (proj2 (@existence_check_predicts_page_tools nat provider GetContent
                    "XYZNOPAGEQQQ123" s0 s1 eq_refl) eq_refl eq_refl).
Defined.

(** A missing page is not reported as unambiguous. *)
Lemma missing_page_disambiguation :
  fst (wikipedia_page provider "XYZNOPAGEQQQ123" (world s1))
  = fst (wikipedia_page provider "XYZNOPAGEQQQ123" (world s0))
  /\ fst (check_page_exists provider {| page := "XYZNOPAGEQQQ123" |} s0)
     = Returned (JObj [("exists", JBool false)])
  /\ exists m, fst (disambiguation_options provider {| page := "XYZNOPAGEQQQ123" |} s1)
               = Raised (ToolError ("Disambiguation check error: " ++ m)).
Proof.
  split; [reflexivity |]. split; [reflexivity |].
  apply (proj1 (proj2 (@existence_and_disambiguation nat provider
                         {| page := "XYZNOPAGEQQQ123" |} s0 s1 eq_refl))).
  reflexivity.
Defined.

(** An argument with an extra key runs the body on its [page] value. *)
Lemma extra_key_scenario :
  dict_get (field_of GetTitle)
    [("lang", JStr "en"); ("page", JStr "Albert Einstein")]
  = Some (JStr "Albert Einstein")
  /\ call_tool provider GetTitle
       (JObj [("lang", JStr "en"); ("page", JStr "Albert Einstein")]) s0
     = tool_body provider GetTitle "Albert Einstein" s0.
Proof.
  split; [reflexivity |].
  apply (proj2 (@provider_reached_iff_valid nat provider GetTitle
                  (JObj [("lang", JStr "en"); ("page", JStr "Albert Einstein")]) s0)
           [("lang", JStr "en"); ("page", JStr "Albert Einstein")] "Albert Einstein");
    reflexivity.
Defined.

End MoreScenarios.
